(** * VibraFrame face-detection service: python_api/main.py

    A shallow embedding of the FastAPI application of [python_api/main.py]
    (the routes [GET /] and [POST /detect-face]) and the properties of its
    HTTP contract.

    The handler is a short script over external collaborators (Starlette's
    [UploadFile], PIL, NumPy and MediaPipe's [FaceDetection]).  Those are
    kept abstract: an environment record supplies what each call returns or
    raises, and the handler is written in a small monad that threads the
    state of the detection runtime, records every external call, and
    propagates Python exceptions. *)

From Stdlib Require Import ZArith List String Ascii Bool Lia DecimalString.
From Stdlib Require Import Floats.SpecFloat.
Import ListNotations.

Local Open Scope string_scope.
Local Open Scope Z_scope.

#[local] Set Warnings "-register-all".

(** ** Python floats: IEEE 754 binary64 *)

Module PyFloat.

Definition prec : Z := 53.
Definition emax : Z := 1024.

Definition float : Type := spec_float.

(** [float(n)] for an integer [n]. *)
Definition of_Z (n : Z) : float := binary_normalize prec emax n 0 false.

Definition add (x y : float) : float := SFadd prec emax x y.
Definition div (x y : float) : float := SFdiv prec emax x y.
Definition leb (x y : float) : bool := SFleb x y.
Definition ltb (x y : float) : bool := SFltb x y.

(** The float a decimal literal [n/d] denotes when [n] and [d] are small
    integers: the correctly rounded quotient. *)
Definition of_ratio (n d : Z) : float := div (of_Z n) (of_Z d).

Definition zero : float := of_Z 0.
Definition one : float := of_Z 1.

(** [0.0 <= x <= 1.0] *)
Definition in_unit (x : float) : bool := leb zero x && leb x one.

(** [math.isfinite(x)]: neither an infinity nor a NaN. *)
Definition is_finite (x : float) : bool :=
  match x with
  | S754_zero _ | S754_finite _ _ _ => true
  | S754_infinity _ | S754_nan => false
  end.

(** The Python float read from a protobuf [float] field: the field holds
    a binary32 number, and reading it widens that number to binary64
    without changing its value. *)
Definition of_float32 (x : spec_float) : float :=
  match x with
  | S754_finite s m e => binary_normalize prec emax (cond_Zopp s (Zpos m)) e s
  | _ => x
  end.

(** The binary32 number nearest to [n/d], as the Python float a protobuf
    field set to that fraction gives back. *)
Definition of_ratio32 (n d : Z) : float :=
  of_float32 (SFdiv 24 128 (binary_normalize 24 128 n 0 false)
                           (binary_normalize 24 128 d 0 false)).

End PyFloat.

Definition float : Type := PyFloat.float.

(** ** Python values that appear in the responses *)

Inductive PyVal : Type :=
| VBool (b : bool)
| VStr (s : string)
| VFloat (x : float)
| VDict (items : list (string * PyVal)).

(** [d.get(k)] on the items of a dict literal. *)
Fixpoint dict_get (items : list (string * PyVal)) (k : string) : option PyVal :=
  match items with
  | [] => None
  | (k', v) :: rest => if String.eqb k' k then Some v else dict_get rest k
  end.

Definition field (v : PyVal) (k : string) : option PyVal :=
  match v with
  | VDict items => dict_get items k
  | _ => None
  end.

(** What [json.dumps(..., allow_nan=False)] accepts: no float in the value
    is an infinity or a NaN. *)
Fixpoint json_compliant (v : PyVal) : bool :=
  match v with
  | VFloat x => PyFloat.is_finite x
  | VDict items =>
      (fix all_compliant (l : list (string * PyVal)) : bool :=
         match l with
         | [] => true
         | (_, v') :: rest => json_compliant v' && all_compliant rest
         end) items
  | _ => true
  end.

(** ** Exceptions *)

(** [HTTPException], the two built-in exceptions the handler's own
    statements can raise, and [LibraryError] for whatever an external call
    raises: its class name, whether that class derives from [Exception]
    (as opposed to [BaseException] only, e.g. [KeyboardInterrupt] or
    [asyncio.CancelledError]) and [str(e)]. *)
Inductive PyExc : Type :=
| HTTPException (status_code : Z) (detail : string)
| AttributeError (msg : string)
| ValueError (msg : string)
| LibraryError (cls : string) (derives_Exception : bool) (msg : string).

(** [isinstance(e, Exception)] *)
Definition is_Exception (e : PyExc) : bool :=
  match e with
  | LibraryError _ b _ => b
  | _ => true
  end.

(** One decimal digit, for the counts in the messages of [unpack3]. *)
Definition Z_digit (n : Z) : string :=
  match n with
  | 0 => "0" | 1 => "1" | 2 => "2" | 3 => "3" | 4 => "4"
  | 5 => "5" | 6 => "6" | 7 => "7" | 8 => "8" | _ => "9"
  end.

(** [str(e)] *)
Definition exc_str (e : PyExc) : string :=
  match e with
  | HTTPException status_code detail =>
      NilZero.string_of_int (Z.to_int status_code) ++ ": " ++ detail
  | AttributeError msg => msg
  | ValueError msg => msg
  | LibraryError _ _ msg => msg
  end.

(** A call either returns a value or raises. *)
Definition Result (A : Type) : Type := (PyExc + A)%type.

(** ** External objects *)

Definition bytes : Type := list Z.

(** Starlette's [UploadFile]: the declared content type ([None] when the
    part carries no Content-Type header) and what [await file.read()]
    yields. *)
Record UploadFile : Type := {
  content_type : option string;
  read : Result bytes
}.

(** A PIL image: only [mode] is inspected by the handler. *)
Record Image : Type := {
  mode : string;
  size : Z * Z;
  pixels : bytes
}.

(** A NumPy array: only [shape] is inspected by the handler. *)
Record ndarray : Type := {
  shape : list Z;
  data : bytes
}.

(** MediaPipe's detection protobuf, as far as the handler reads it. *)
Record RelativeBoundingBox : Type := {
  xmin : float;
  ymin : float;
  width : float;
  height : float
}.

Record LocationData : Type := {
  relative_bounding_box : RelativeBoundingBox
}.

Record Detection : Type := {
  score : list float;
  location_data : LocationData
}.

(** The result of [FaceDetection.process]: [detections] is [None] or a
    list. *)
Record Results : Type := {
  detections : option (list Detection)
}.

(** Truth value of [results.detections]. *)
Definition truthy (ds : option (list Detection)) : bool :=
  match ds with
  | None => false
  | Some [] => false
  | Some (_ :: _) => true
  end.

(** ** The handler monad *)

(** What a request can observe and change.  [W] is the state of the
    detection runtime (MediaPipe graphs, their resources); [FD] is the type
    of handles on [FaceDetection] instances. *)
Section Handler.

Variables W FD : Type.

(** One entry per external call, in program order. *)
Inductive Call : Type :=
| CallRead
| CallImageOpen (contents : bytes)
| CallConvert (image : Image) (to_mode : string)
| CallArray (image : Image)
| CallFaceDetection (model_selection : Z) (min_detection_confidence : float)
| CallProcess (face_detection : FD) (img_np : ndarray)
| CallClose (face_detection : FD)
| CallPrint (line : string).

Record State : Type := {
  world : W;
  calls : list Call
}.

Definition M (A : Type) : Type := State -> Result A * State.

Definition ret {A} (a : A) : M A := fun st => (inr a, st).

Definition raise {A} (e : PyExc) : M A := fun st => (inl e, st).

Definition bind {A B} (m : M A) (k : A -> M B) : M B :=
  fun st =>
    match m st with
    | (inl e, st') => (inl e, st')
    | (inr a, st') => k a st'
    end.

(** A call into a library that has no state of its own. *)
Definition call_pure {A} (c : Call) (r : Result A) : M A :=
  fun st => (r, {| world := world st; calls := calls st ++ [c] |}).

(** A call into the detection runtime. *)
Definition call_world {A} (c : Call) (f : W -> Result A * W) : M A :=
  fun st =>
    let (r, w') := f (world st) in
    (r, {| world := w'; calls := calls st ++ [c] |}).

(** [try: body  except Exception as e: handler(e)] *)
Definition try_except_Exception {A} (body : M A) (handler : PyExc -> M A) : M A :=
  fun st =>
    match body st with
    | (inl e, st') => if is_Exception e then handler e st' else (inl e, st')
    | (inr a, st') => (inr a, st')
    end.

(** [with manager as x: body(x)] for a context manager whose [__enter__]
    returns the object itself and whose [__exit__] calls [close] and
    returns a false value: [close] runs on every exit from the body; an
    exception of the body is re-raised after it, unless [close] itself
    raises. *)
Definition with_closing {A} (manager : M FD) (close : FD -> M unit)
           (body : FD -> M A) : M A :=
  bind manager (fun x =>
    fun st =>
      match body x st with
      | (inl e, st') =>
          match close x st' with
          | (inl e', st'') => (inl e', st'')
          | (inr _, st'') => (inl e, st'')
          end
      | (inr a, st') =>
          match close x st' with
          | (inl e', st'') => (inl e', st'')
          | (inr _, st'') => (inr a, st'')
          end
      end).

End Handler.

Arguments CallRead {FD}.
Arguments CallImageOpen {FD}.
Arguments CallConvert {FD}.
Arguments CallArray {FD}.
Arguments CallFaceDetection {FD}.
Arguments CallProcess {FD}.
Arguments CallClose {FD}.
Arguments CallPrint {FD}.
Arguments world {W FD}.
Arguments calls {W FD}.
Arguments Build_State {W FD}.
Arguments ret {W FD A}.
Arguments raise {W FD A}.
Arguments bind {W FD A B}.
Arguments call_pure {W FD A}.
Arguments call_world {W FD A}.
Arguments try_except_Exception {W FD A}.
Arguments with_closing {W FD A}.

Declare Scope py_scope.
Delimit Scope py_scope with py.
Notation "x <- m ;; k" := (bind m (fun x => k))
  (at level 61, m at next level, right associativity) : py_scope.
Notation "m ;;; k" := (bind m (fun _ => k))
  (at level 61, right associativity) : py_scope.

Local Open Scope py_scope.

(** ** The external collaborators *)

(** What the libraries do during one request.  PIL and NumPy compute on
    values in memory; the detection runtime has a state of its own.  The
    record stands for a single request: the text of an exception may show
    where the objects of that request live (PIL's "cannot identify image
    file" message prints the address of the [BytesIO] it was given), so a
    later request with the same bytes has a record of its own, related to
    this one by [Replays] below. *)
Record Env (W FD : Type) : Type := {
  (** [Image.open(io.BytesIO(contents))] *)
  Image_open : bytes -> Result Image;
  (** [image.convert(mode)] *)
  Image_convert : Image -> string -> Result Image;
  (** [np.array(image)] *)
  np_array : Image -> Result ndarray;
  (** [mp_face_detection.FaceDetection(model_selection, min_detection_confidence)] *)
  FaceDetection : Z -> float -> W -> Result FD * W;
  (** [face_detection.process(img_np)] *)
  process : FD -> ndarray -> W -> Result Results * W;
  (** [face_detection.close()], called by [__exit__] *)
  close : FD -> W -> Result unit * W
}.

Arguments Image_open {W FD}.
Arguments Image_convert {W FD}.
Arguments np_array {W FD}.
Arguments FaceDetection {W FD}.
Arguments process {W FD}.
Arguments close {W FD}.

(** ** Built-in operations the handler uses *)

(** [s.startswith(prefix)], where [s] may be [None]. *)
Definition startswith (s : option string) (prefix : string) : Result bool :=
  match s with
  | None => inl (AttributeError "'NoneType' object has no attribute 'startswith'")
  | Some s => inr (String.prefix prefix s)
  end.

(** [a, b, c = t] *)
Definition unpack3 (t : list Z) : Result (Z * Z * Z) :=
  match t with
  | [a; b; c] => inr (a, b, c)
  | _ :: _ :: _ :: _ :: _ => inl (ValueError "too many values to unpack (expected 3)")
  | _ =>
      inl (ValueError ("not enough values to unpack (expected 3, got "
                         ++ Z_digit (Z.of_nat (List.length t)) ++ ")"))
  end.

(** [ds[0]] *)
Definition subscript0 (ds : option (list Detection)) : Result Detection :=
  match ds with
  | None => inl (LibraryError "TypeError" true "'NoneType' object is not subscriptable")
  | Some [] => inl (LibraryError "IndexError" true "list index out of range")
  | Some (d :: _) => inr d
  end.

(** ** The application *)

Section App.

Context {W FD : Type}.
Variable env : Env W FD.

Definition lift {A} (r : Result A) : M W FD A := fun st => (r, st).

(** [read_root], lines 21-23. *)
Definition read_root : M W FD PyVal :=
  ret (VDict [("status", VStr "ok"); ("service", VStr "VibraFrame Face Detection")]).

(** Lines 32-40 of [detect_face]: read the upload, decode it, convert it
    to RGB when its mode differs, turn it into an array and unpack the
    shape. *)
Definition load_rgb_array (file : UploadFile) : M W FD ndarray :=
  contents <- call_pure CallRead (read file) ;;
  image <- call_pure (CallImageOpen contents) (Image_open env contents) ;;
  image <- (if negb (String.eqb (mode image) "RGB")
            then call_pure (CallConvert image "RGB") (Image_convert env image "RGB")
            else ret image) ;;
  img_np <- call_pure (CallArray image) (np_array env image) ;;
  _ <- lift (unpack3 (shape img_np)) ;;
  ret img_np.

(** Lines 58-73: the payload for a bounding box. *)
Definition face_payload (bbox : RelativeBoundingBox) : PyVal :=
  let face_cx := PyFloat.add (xmin bbox) (PyFloat.div (width bbox) (PyFloat.of_Z 2)) in
  let face_cy := PyFloat.add (ymin bbox) (PyFloat.div (height bbox) (PyFloat.of_Z 2)) in
  VDict [("ok", VBool true);
         ("found", VBool true);
         ("face", VDict [("x", VFloat face_cx);
                         ("y", VFloat face_cy);
                         ("w", VFloat (width bbox));
                         ("h", VFloat (height bbox))])].

(** Lines 49-73: map the detection results to the returned value; no
    external call is made here. *)
Definition locate_face (results : Results) : Result PyVal :=
  if negb (truthy (detections results))
  then inr (VDict [("ok", VBool true); ("found", VBool false)])
  else
    match subscript0 (detections results) with
    | inl e => inl e
    | inr detection =>
        let bbox := relative_bounding_box (location_data detection) in
        inr (face_payload bbox)
    end.

(** Lines 43-73: the [with] block. *)
Definition run_detection (img_np : ndarray) : M W FD PyVal :=
  with_closing
    (call_world (CallFaceDetection 1 (PyFloat.of_ratio 1 2))
                (FaceDetection env 1 (PyFloat.of_ratio 1 2)))
    (fun face_detection =>
       call_world (CallClose face_detection) (close env face_detection))
    (fun face_detection =>
       results <- call_world (CallProcess face_detection img_np)
                             (process env face_detection img_np) ;;
       lift (locate_face results)).

(** Lines 31-73: the body of the [try]. *)
Definition detect_face_try (file : UploadFile) : M W FD PyVal :=
  img_np <- load_rgb_array file ;;
  run_detection img_np.

(** Lines 75-77: the [except Exception as e] clause. *)
Definition detect_face_except (e : PyExc) : M W FD PyVal :=
  call_pure (CallPrint ("Error processing image: " ++ exc_str e)) (inr tt) ;;;
  ret (VDict [("ok", VBool false); ("error", VStr (exc_str e))]).

(** [detect_face], lines 26-77. *)
Definition detect_face (file : UploadFile) : M W FD PyVal :=
  is_image <- lift (startswith (content_type file) "image/") ;;
  if negb is_image
  then raise (HTTPException 400 "File must be an image")
  else try_except_Exception (detect_face_try file) detect_face_except.

End App.

(** ** What FastAPI makes of a handler's outcome *)

Record HttpResponse : Type := {
  status : Z;
  body : PyVal
}.

(** A returned value is rendered as JSON with [allow_nan=False] and sent
    with status 200; when it holds an infinity or a NaN the rendering
    raises [ValueError], after the handler has returned, and the answer is
    a 500.  An [HTTPException] becomes its status code with
    [{"detail": detail}]; any other exception deriving from [Exception]
    becomes a 500; anything else escapes the server's exception handling
    and no response is produced. *)
Definition respond (r : Result PyVal) : option HttpResponse :=
  match r with
  | inr v =>
      if json_compliant v
      then Some {| status := 200; body := v |}
      else Some {| status := 500; body := VStr "Internal Server Error" |}
  | inl (HTTPException status_code detail) =>
      Some {| status := status_code; body := VDict [("detail", VStr detail)] |}
  | inl e =>
      if is_Exception e
      then Some {| status := 500; body := VStr "Internal Server Error" |}
      else None
  end.

(** A fresh request: nothing has been called yet. *)
Definition request_state {W FD} (w : W) : State W FD :=
  {| world := w; calls := [] |}.

(** [GET /] *)
Definition get_root {W FD} (w : W) : option HttpResponse * State W FD :=
  let (r, st) := read_root (request_state w) in (respond r, st).

(** [POST /detect-face] *)
Definition post_detect_face {W FD} (env : Env W FD) (file : UploadFile) (w : W)
  : option HttpResponse * State W FD :=
  let (r, st) := detect_face env file (request_state w) in (respond r, st).

(** ** Notions used to state the properties *)

(** The state after the three calls of the [with] block. *)
Definition after_detection {W FD} (st : State W FD) (img_np : ndarray) (fd : FD)
           (w : W) : State W FD :=
  {| world := w;
     calls := ((calls st ++ [CallFaceDetection 1 (PyFloat.of_ratio 1 2)])
                 ++ [CallProcess fd img_np]) ++ [CallClose fd] |}.

(** The environment [env] with another detection function. *)
Definition with_process {W FD} (env : Env W FD)
           (p : FD -> ndarray -> W -> Result Results * W) : Env W FD :=
  {| Image_open := Image_open env;
     Image_convert := Image_convert env;
     np_array := np_array env;
     FaceDetection := FaceDetection env;
     process := p;
     close := close env |}.

(** Two outcomes of [process] that leave the runtime in the same state and
    return non-empty detection lists with the same first element. *)
Definition same_first {W} (o1 o2 : Result Results * W) : Prop :=
  snd o1 = snd o2
  /\ exists d rest1 rest2,
      fst o1 = inr {| detections := Some (d :: rest1) |}
      /\ fst o2 = inr {| detections := Some (d :: rest2) |}.

(** An array of shape [(height, width, 3)]. *)
Definition three_channels (a : ndarray) : Prop :=
  exists h w, shape a = [h; w; 3].

(** What the RGB invariant asks of one call: the picture turned into an
    array has mode RGB, and the array given to the model has three
    channels. *)
Definition rgb_call {FD} (c : Call FD) : Prop :=
  match c with
  | CallArray image => mode image = "RGB"
  | CallProcess _ img_np => three_channels img_np
  | _ => True
  end.

(** The detection capability is a deterministic function of its
    parameters and of the pixel buffer: whether construction succeeds, what
    [process] returns and whether [close] succeeds do not depend on the
    state of the runtime nor on which instance is used, among instances
    built with the same parameters. *)
Record Deterministic {W FD} (env : Env W FD) : Prop := {
  det_new : forall ms mc w w',
    match fst (FaceDetection env ms mc w), fst (FaceDetection env ms mc w') with
    | inl e, inl e' => e = e'
    | inr _, inr _ => True
    | _, _ => False
    end;
  det_process : forall ms mc w w' fd fd' u u' a v v',
    FaceDetection env ms mc w = (inr fd, u) ->
    FaceDetection env ms mc w' = (inr fd', u') ->
    fst (process env fd a v) = fst (process env fd' a v');
  det_close : forall ms mc w w' fd fd' u u' v v',
    FaceDetection env ms mc w = (inr fd, u) ->
    FaceDetection env ms mc w' = (inr fd', u') ->
    fst (close env fd v) = fst (close env fd' v')
}.

(** Two outcomes of a library call that a handler cannot tell apart
    except by the text of the exception: the same value, or two exceptions
    that are both caught by [except Exception] or both not. *)
Definition same_outcome {A} (r r' : Result A) : Prop :=
  match r, r' with
  | inr a, inr a' => a = a'
  | inl e, inl e' => is_Exception e = is_Exception e'
  | _, _ => False
  end.

(** [env'] is what a later request meets when [env] is what this one
    meets: the same detection capability, and PIL and NumPy calls that
    give the same values on the same arguments, or fail alike, possibly
    with another message. *)
Record Replays {W FD} (env env' : Env W FD) : Prop := {
  replay_open : forall contents,
    same_outcome (Image_open env contents) (Image_open env' contents);
  replay_convert : forall image to_mode,
    same_outcome (Image_convert env image to_mode)
                 (Image_convert env' image to_mode);
  replay_array : forall image,
    same_outcome (np_array env image) (np_array env' image);
  replay_new : FaceDetection env' = FaceDetection env;
  replay_process : process env' = process env;
  replay_close : close env' = close env
}.

(** What a client reads off an answer besides the error text: the status
    and the [ok], [found] and [face] entries of the body. *)
Definition found_and_face (answer : option HttpResponse)
  : option (Z * option PyVal * option PyVal * option PyVal) :=
  match answer with
  | Some response =>
      Some (status response,
            field (body response) "ok",
            field (body response) "found",
            field (body response) "face")
  | None => None
  end.

(** A 200 response [{ok: false, error: msg}] with a non-empty [msg]. *)
Definition reports_nonempty_error (r : option HttpResponse) : Prop :=
  exists msg,
    msg <> ""
    /\ r = Some {| status := 200;
                   body := VDict [("ok", VBool false); ("error", VStr msg)] |}.

(** A call of lines 32-40: reading, decoding, and a conversion that
    targets RGB and starts from a picture of another mode. *)
Definition decode_call {FD} (c : Call FD) : Prop :=
  match c with
  | CallRead | CallImageOpen _ | CallArray _ => True
  | CallConvert image to_mode => to_mode = "RGB" /\ mode image <> "RGB"
  | _ => False
  end.

(** The calls of the [with] block of one request: none, the construction
    alone (when it raises), or construction, one [process] on the new
    instance with a three-dimensional array, and [close] of that
    instance. *)
Definition runtime_phase {FD} (rs : list (Call FD)) : Prop :=
  rs = []
  \/ rs = [CallFaceDetection 1 (PyFloat.of_ratio 1 2)]
  \/ exists fd img_np h w c,
      shape img_np = [h; w; c]
      /\ rs = [CallFaceDetection 1 (PyFloat.of_ratio 1 2);
               CallProcess fd img_np; CallClose fd].

(** The two values the handler returns on success. *)
Definition ok_value (v : PyVal) : Prop :=
  v = VDict [("ok", VBool true); ("found", VBool false)]
  \/ exists bbox, v = face_payload bbox.

(** The value of the [except] clause for the message [msg]. *)
Definition error_value (msg : string) : PyVal :=
  VDict [("ok", VBool false); ("error", VStr msg)].

(** Whether a call constructs a [FaceDetection] instance. *)
Definition is_construction {FD} (c : Call FD) : bool :=
  match c with
  | CallFaceDetection _ _ => true
  | _ => false
  end.

(** ** Decimal literals *)

(** [0.2], [0.3], ... as Python reads them: the binary64 number nearest to
    the decimal fraction. *)
Module Literal.

Definition f0_1 : float := PyFloat.of_ratio 1 10.
Definition f0_2 : float := PyFloat.of_ratio 2 10.
Definition f0_25 : float := PyFloat.of_ratio 25 100.
Definition f0_3 : float := PyFloat.of_ratio 3 10.
Definition f0_4 : float := PyFloat.of_ratio 4 10.
Definition f0_5 : float := PyFloat.of_ratio 5 10.
Definition f0_9 : float := PyFloat.of_ratio 9 10.
Definition f1_05 : float := PyFloat.of_ratio 105 100.

End Literal.

(** ** Concrete collaborators *)

(** A small deterministic stand-in for PIL, NumPy and MediaPipe, used to
    run the handler on concrete requests.  The runtime state counts the
    [FaceDetection] instances created so far; a handle is the number of
    its instance. *)
Module Fixture.

(** The shape NumPy gives the array of an image of each mode. *)
Definition array_of (image : Image) : ndarray :=
  let (w, h) := size image in
  {| shape := if String.eqb (mode image) "L" then [h; w]
              else if String.eqb (mode image) "RGB" then [h; w; 3]
              else [h; w; 4];
     data := pixels image |}.

Definition converted (image : Image) (to_mode : string) : Image :=
  {| mode := to_mode; size := size image; pixels := pixels image |}.

(** [decoded]: what decoding the upload yields; [found]: what the model
    finds on any picture. *)
Definition env (decoded : Result Image) (found : Result Results) : Env nat nat :=
  {| Image_open := fun _ => decoded;
     Image_convert := fun image to_mode => inr (converted image to_mode);
     np_array := fun image => inr (array_of image);
     FaceDetection := fun _ _ n => (inr n, S n);
     process := fun _ _ n => (found, n);
     close := fun _ n => (inr tt, n) |}.

Definition picture (m : string) : Image :=
  {| mode := m; size := (4, 2); pixels := [] |}.

Definition upload (ct : option string) : UploadFile :=
  {| content_type := ct; read := inr [137; 80; 78; 71] |}.

Definition box (x y w h : float) : Detection :=
  {| score := [PyFloat.of_ratio 9 10];
     location_data :=
       {| relative_bounding_box :=
            {| xmin := x; ymin := y; width := w; height := h |} |} |}.

Definition faces (ds : list Detection) : Result Results :=
  inr {| detections := Some ds |}.

End Fixture.

(** * Properties *)

(** ** Float literals *)

(** The literals are the expected binary64 values, mantissa and exponent:
    [0.2] is [0x1.999999999999ap-3], [0.25] is [0x1p-2], [0.4] is
    [0x1.999999999999ap-2], [0.1] is [0x1.999999999999ap-4], [0.3] is
    [0x1.3333333333333p-2], [1.05] is [0x1.0cccccccccccdp+0]. *)
Lemma literal_values :
  Literal.f0_2 = S754_finite false 0x1999999999999a (-55)
  /\ Literal.f0_25 = S754_finite false 0x10000000000000 (-54)
  /\ Literal.f0_4 = S754_finite false 0x1999999999999a (-54)
  /\ Literal.f0_1 = S754_finite false 0x1999999999999a (-56)
  /\ Literal.f0_3 = S754_finite false 0x13333333333333 (-54)
  /\ Literal.f1_05 = S754_finite false 0x10cccccccccccd (-52).
Proof. repeat split; vm_compute; reflexivity. Qed.

(** ** [GET /] *)

Section Root.

Context {W FD : Type}.

Lemma read_root_returns (st : State W FD) :
  read_root st
  = (inr (VDict [("status", VStr "ok");
                 ("service", VStr "VibraFrame Face Detection")]), st).
Proof. reflexivity. Qed.

(** C9: [GET /] takes no input and answers 200 with the static payload
    [{"status": "ok", "service": "VibraFrame Face Detection"}] whatever
    the state of the process; it raises nothing, calls nothing and leaves
    the state as it was. *)
Theorem get_root_static (w : W) :
  @get_root W FD w
  = (Some {| status := 200;
             body := VDict [("status", VStr "ok");
                            ("service", VStr "VibraFrame Face Detection")] |},
     request_state w).
Proof. unfold get_root. rewrite read_root_returns. reflexivity. Qed.

End Root.

(** ** The content-type precondition *)

Section Precondition.

Context {W FD : Type}.
Variable env : Env W FD.

(** C1: an upload whose declared content type does not start with
    [image/] is answered 400 with detail "File must be an image",
    whatever its body; no external call is made (nothing is read, decoded
    or detected) and the runtime state is untouched. *)
Theorem non_image_rejected (file : UploadFile) (ct : string) (w : W) :
  content_type file = Some ct ->
  String.prefix "image/" ct = false ->
  post_detect_face env file w
  = (Some {| status := 400;
             body := VDict [("detail", VStr "File must be an image")] |},
     request_state w).
Proof.
  intros Hct Hprefix.
  unfold post_detect_face, detect_face, bind, lift, startswith.
  rewrite Hct, Hprefix. reflexivity.
Qed.

(** C10: an upload with no declared content type makes the precondition
    check itself raise [AttributeError], outside the [try]: the handler
    neither raises the 400 [HTTPException] nor returns the
    [{ok: false}] value, nothing is called, and the framework answers
    500. *)
Theorem missing_content_type_escapes (file : UploadFile) (w : W) :
  content_type file = None ->
  detect_face env file (request_state w)
  = (inl (AttributeError "'NoneType' object has no attribute 'startswith'"),
     request_state w)
  /\ post_detect_face env file w
     = (Some {| status := 500; body := VStr "Internal Server Error" |},
        request_state w).
Proof.
  intros Hct.
  unfold post_detect_face, detect_face, bind, lift, startswith.
  rewrite Hct. split; reflexivity.
Qed.

End Precondition.

(** C1 on a concrete request: a text upload. *)
Lemma non_image_rejected_witness :
  fst (post_detect_face
         (Fixture.env (inr (Fixture.picture "RGB")) (Fixture.faces []))
         (Fixture.upload (Some "text/plain")) 0%nat)
  = Some {| status := 400;
            body := VDict [("detail", VStr "File must be an image")] |}.
Proof.
  rewrite (non_image_rejected _ (Fixture.upload (Some "text/plain")) "text/plain" 0%nat);
    reflexivity.
Defined.

(** C10 on a concrete request: a part without Content-Type. *)
Lemma missing_content_type_escapes_witness :
  fst (post_detect_face
         (Fixture.env (inr (Fixture.picture "RGB")) (Fixture.faces []))
         (Fixture.upload None) 0%nat)
  = Some {| status := 500; body := VStr "Internal Server Error" |}.
Proof.
  rewrite (proj2 (missing_content_type_escapes
                    (Fixture.env (inr (Fixture.picture "RGB")) (Fixture.faces []))
                    (Fixture.upload None) 0%nat eq_refl)).
  reflexivity.
Defined.

(** ** Runs that reach the model *)

Lemma locate_face_none (results : Results) :
  truthy (detections results) = false ->
  locate_face results = inr (VDict [("ok", VBool true); ("found", VBool false)]).
Proof. intros H. unfold locate_face. rewrite H. reflexivity. Qed.

Lemma locate_face_first (results : Results) (d : Detection) (rest : list Detection) :
  detections results = Some (d :: rest) ->
  locate_face results
  = inr (face_payload (relative_bounding_box (location_data d))).
Proof. intros H. unfold locate_face. rewrite H. reflexivity. Qed.

(** The mapping of the results never raises. *)
Lemma locate_face_total (results : Results) :
  exists v, locate_face results = inr v.
Proof.
  destruct results as [[[|d rest]|]]; eexists; reflexivity.
Qed.

Section Pipeline.

Context {W FD : Type}.
Variable env : Env W FD.

Lemma run_detection_returns (img_np : ndarray) (st : State W FD)
      (fd : FD) (w2 w3 w4 : W) (results : Results) :
  FaceDetection env 1 (PyFloat.of_ratio 1 2) (world st) = (inr fd, w2) ->
  process env fd img_np w2 = (inr results, w3) ->
  close env fd w3 = (inr tt, w4) ->
  run_detection env img_np st
  = (locate_face results, after_detection st img_np fd w4).
Proof.
  intros Hnew Hprocess Hclose.
  unfold run_detection, with_closing, bind, call_world, lift.
  rewrite Hnew; cbv beta iota; cbn [world calls].
  rewrite Hprocess; cbv beta iota; cbn [world calls].
  destruct (locate_face results); rewrite Hclose; reflexivity.
Qed.

(** A request that passes the precondition, decodes to [img_np] and on
    which the model is built, run and released normally: the handler
    returns what [locate_face] makes of the results. *)
Lemma detect_face_value (file : UploadFile) (ct : string) (w : W)
      (img_np : ndarray) (st1 : State W FD)
      (fd : FD) (w2 w3 w4 : W) (results : Results) (v : PyVal) :
  content_type file = Some ct ->
  String.prefix "image/" ct = true ->
  load_rgb_array env file (request_state w) = (inr img_np, st1) ->
  FaceDetection env 1 (PyFloat.of_ratio 1 2) (world st1) = (inr fd, w2) ->
  process env fd img_np w2 = (inr results, w3) ->
  close env fd w3 = (inr tt, w4) ->
  locate_face results = inr v ->
  detect_face env file (request_state w)
  = (inr v, after_detection st1 img_np fd w4).
Proof.
  intros Hct Hprefix Hload Hnew Hprocess Hclose Hv.
  unfold detect_face, bind, lift, startswith.
  rewrite Hct, Hprefix; cbn.
  unfold try_except_Exception, detect_face_try, bind.
  rewrite Hload.
  rewrite (run_detection_returns img_np st1 fd w2 w3 w4 results Hnew Hprocess Hclose).
  rewrite Hv. reflexivity.
Qed.

(** The answer made of that value. *)
Lemma detect_face_returns (file : UploadFile) (ct : string) (w : W)
      (img_np : ndarray) (st1 : State W FD)
      (fd : FD) (w2 w3 w4 : W) (results : Results) (v : PyVal) :
  content_type file = Some ct ->
  String.prefix "image/" ct = true ->
  load_rgb_array env file (request_state w) = (inr img_np, st1) ->
  FaceDetection env 1 (PyFloat.of_ratio 1 2) (world st1) = (inr fd, w2) ->
  process env fd img_np w2 = (inr results, w3) ->
  close env fd w3 = (inr tt, w4) ->
  locate_face results = inr v ->
  post_detect_face env file w
  = (respond (inr v), after_detection st1 img_np fd w4).
Proof.
  intros Hct Hprefix Hload Hnew Hprocess Hclose Hv.
  unfold post_detect_face.
  rewrite (detect_face_value file ct w img_np st1 fd w2 w3 w4 results v
             Hct Hprefix Hload Hnew Hprocess Hclose Hv).
  reflexivity.
Qed.

(** C3: a valid image upload on which the model returns no detection
    ([detections] is [None] or empty) is answered 200 with exactly
    [{ok: true, found: false}]; the body has no [face] entry. *)
Theorem no_detection_not_found (file : UploadFile) (ct : string) (w : W)
        (img_np : ndarray) (st1 : State W FD)
        (fd : FD) (w2 w3 w4 : W) (results : Results) :
  content_type file = Some ct ->
  String.prefix "image/" ct = true ->
  load_rgb_array env file (request_state w) = (inr img_np, st1) ->
  FaceDetection env 1 (PyFloat.of_ratio 1 2) (world st1) = (inr fd, w2) ->
  process env fd img_np w2 = (inr results, w3) ->
  close env fd w3 = (inr tt, w4) ->
  truthy (detections results) = false ->
  exists response,
    fst (post_detect_face env file w) = Some response
    /\ status response = 200
    /\ body response = VDict [("ok", VBool true); ("found", VBool false)]
    /\ field (body response) "face" = None.
Proof.
  intros Hct Hprefix Hload Hnew Hprocess Hclose Hnone.
  rewrite (detect_face_returns file ct w img_np st1 fd w2 w3 w4 results _
             Hct Hprefix Hload Hnew Hprocess Hclose
             (locate_face_none results Hnone)).
  eexists; repeat split.
Qed.

(** C4: when the first detection has the bounding box
    [{xmin, ymin, width, height}], the handler returns the face payload
    [x = xmin + width/2], [y = ymin + height/2], [w = width], [h = height]
    in binary64 arithmetic, for every box; the payload is sent as it is,
    with status 200, whenever its numbers are finite (an infinity or a NaN
    cannot be rendered as JSON); for
    [xmin=0.2, ymin=0.3, width=0.1, height=0.2] the response carries
    [x=0.25, y=0.4, w=0.1, h=0.2]. *)
Theorem first_box_center (file : UploadFile) (ct : string) (w : W)
        (img_np : ndarray) (st1 : State W FD)
        (fd : FD) (w2 w3 w4 : W) (results : Results)
        (d : Detection) (rest : list Detection) :
  content_type file = Some ct ->
  String.prefix "image/" ct = true ->
  load_rgb_array env file (request_state w) = (inr img_np, st1) ->
  FaceDetection env 1 (PyFloat.of_ratio 1 2) (world st1) = (inr fd, w2) ->
  process env fd img_np w2 = (inr results, w3) ->
  close env fd w3 = (inr tt, w4) ->
  detections results = Some (d :: rest) ->
  let bbox := relative_bounding_box (location_data d) in
  let payload :=
    VDict [("ok", VBool true);
           ("found", VBool true);
           ("face",
            VDict [("x", VFloat (PyFloat.add (xmin bbox)
                                   (PyFloat.div (width bbox) (PyFloat.of_Z 2))));
                   ("y", VFloat (PyFloat.add (ymin bbox)
                                   (PyFloat.div (height bbox) (PyFloat.of_Z 2))));
                   ("w", VFloat (width bbox));
                   ("h", VFloat (height bbox))])] in
  fst (detect_face env file (request_state w)) = inr payload
  /\ (json_compliant payload = true ->
      fst (post_detect_face env file w)
      = Some {| status := 200; body := payload |})
  /\ (bbox = {| xmin := Literal.f0_2; ymin := Literal.f0_3;
                width := Literal.f0_1; height := Literal.f0_2 |} ->
      fst (post_detect_face env file w)
      = Some {| status := 200;
                body :=
                  VDict [("ok", VBool true);
                         ("found", VBool true);
                         ("face",
                          VDict [("x", VFloat Literal.f0_25);
                                 ("y", VFloat Literal.f0_4);
                                 ("w", VFloat Literal.f0_1);
                                 ("h", VFloat Literal.f0_2)])] |}).
Proof.
  intros Hct Hprefix Hload Hnew Hprocess Hclose Hfirst bbox payload.
  pose proof (locate_face_first results d rest Hfirst) as Hv.
  fold bbox in Hv. change (face_payload bbox) with payload in Hv.
  rewrite (detect_face_value file ct w img_np st1 fd w2 w3 w4 results payload
             Hct Hprefix Hload Hnew Hprocess Hclose Hv).
  rewrite (detect_face_returns file ct w img_np st1 fd w2 w3 w4 results payload
             Hct Hprefix Hload Hnew Hprocess Hclose Hv).
  split; [ reflexivity | ]. split.
  - intros Hfinite. cbn [fst respond]. rewrite Hfinite. reflexivity.
  - intros Hbox. subst payload. rewrite Hbox. vm_compute. reflexivity.
Qed.

End Pipeline.

(** C3 on a concrete request: a PNG on which the model finds nothing. *)
Lemma no_detection_not_found_witness :
  exists response,
    fst (post_detect_face
           (Fixture.env (inr (Fixture.picture "RGBA")) (Fixture.faces []))
           (Fixture.upload (Some "image/png")) 0%nat) = Some response
    /\ status response = 200
    /\ body response = VDict [("ok", VBool true); ("found", VBool false)]
    /\ field (body response) "face" = None.
Proof.
  eapply (no_detection_not_found
            (Fixture.env (inr (Fixture.picture "RGBA")) (Fixture.faces []))
            (Fixture.upload (Some "image/png")) "image/png" 0%nat);
    reflexivity.
Defined.

(** C4 on a concrete request: the model reports the box of the example
    first and another one after it. *)
Lemma first_box_center_witness :
  fst (post_detect_face
         (Fixture.env (inr (Fixture.picture "RGB"))
            (Fixture.faces
               [Fixture.box Literal.f0_2 Literal.f0_3 Literal.f0_1 Literal.f0_2;
                Fixture.box Literal.f0_5 Literal.f0_5 Literal.f0_25 Literal.f0_25]))
         (Fixture.upload (Some "image/jpeg")) 0%nat)
  = Some {| status := 200;
            body :=
              VDict [("ok", VBool true);
                     ("found", VBool true);
                     ("face",
                      VDict [("x", VFloat Literal.f0_25);
                             ("y", VFloat Literal.f0_4);
                             ("w", VFloat Literal.f0_1);
                             ("h", VFloat Literal.f0_2)])] |}.
Proof.
  edestruct (first_box_center
               (Fixture.env (inr (Fixture.picture "RGB"))
                  (Fixture.faces
                     [Fixture.box Literal.f0_2 Literal.f0_3 Literal.f0_1 Literal.f0_2;
                      Fixture.box Literal.f0_5 Literal.f0_5 Literal.f0_25
                        Literal.f0_25]))
               (Fixture.upload (Some "image/jpeg")) "image/jpeg" 0%nat)
    as (_ & _ & Hliteral); [ reflexivity .. | ].
  exact (Hliteral eq_refl).
Defined.

(** The same law at the values a MediaPipe box holds when set to
    [0.2, 0.3, 0.1, 0.2]: its fields are binary32 and are widened when
    read, so the payload carries [x = 0x1.0000004p-2] (0.2500000037...),
    [y = 0x1.99999a8p-2] (0.4000000134...), [w = 0x1.99999ap-4] and
    [h = 0x1.99999ap-3], all finite. *)
Lemma center_at_float32_values :
  let bbox := {| xmin := PyFloat.of_ratio32 2 10; ymin := PyFloat.of_ratio32 3 10;
                 width := PyFloat.of_ratio32 1 10;
                 height := PyFloat.of_ratio32 2 10 |} in
  face_payload bbox
  = VDict [("ok", VBool true);
           ("found", VBool true);
           ("face",
            VDict [("x", VFloat (S754_finite false 0x10000004000000 (-54)));
                   ("y", VFloat (S754_finite false 0x199999a8000000 (-54)));
                   ("w", VFloat (S754_finite false 0x199999a0000000 (-56)));
                   ("h", VFloat (S754_finite false 0x199999a0000000 (-55)))])]
  /\ json_compliant (face_payload bbox) = true.
Proof. split; vm_compute; reflexivity. Qed.

(** A box with an infinite width: the handler returns a payload with
    [x = inf] and [w = inf], which cannot be rendered as JSON, and the
    answer is a 500 although the handler itself did not raise. *)
Lemma infinite_box_answers_500 :
  let d := Fixture.box Literal.f0_2 Literal.f0_3 (S754_infinity false) Literal.f0_2 in
  let env := Fixture.env (inr (Fixture.picture "RGB")) (Fixture.faces [d]) in
  let file := Fixture.upload (Some "image/png") in
  fst (detect_face env file (request_state 0%nat))
  = inr (VDict [("ok", VBool true);
                ("found", VBool true);
                ("face", VDict [("x", VFloat (S754_infinity false));
                                ("y", VFloat Literal.f0_4);
                                ("w", VFloat (S754_infinity false));
                                ("h", VFloat Literal.f0_2)])])
  /\ fst (post_detect_face env file 0%nat)
     = Some {| status := 500; body := VStr "Internal Server Error" |}.
Proof. split; vm_compute; reflexivity. Qed.

(** ** Range of the reported centre *)

(** [w] and [h] are the box's own [width] and [height], so they stay in
    [[0, 1]] when those do. *)
Lemma face_size_in_unit (bbox : RelativeBoundingBox) :
  PyFloat.in_unit (width bbox) = true ->
  PyFloat.in_unit (height bbox) = true ->
  exists x y w h,
    face_payload bbox
    = VDict [("ok", VBool true);
             ("found", VBool true);
             ("face", VDict [("x", VFloat x); ("y", VFloat y);
                             ("w", VFloat w); ("h", VFloat h)])]
    /\ PyFloat.in_unit w = true
    /\ PyFloat.in_unit h = true.
Proof.
  intros Hw Hh. eexists _, _, _, _.
  split; [ reflexivity | ]. split; assumption.
Qed.

(** C5 at [xmin = 0.9, ymin = 0.25, width = 0.3, height = 0.5] (a face
    cut by the right edge of the picture): the four fields of the box lie
    in [[0, 1]], the response has [found: true], and the reported [x] is
    [0.9 + 0.3/2 = 1.05], outside [[0, 1]]; nothing in lines 58-72 clamps
    the centre. *)
Theorem center_leaves_unit_interval :
  let bbox := {| xmin := Literal.f0_9; ymin := Literal.f0_25;
                 width := Literal.f0_3; height := Literal.f0_5 |} in
  let d := {| score := [Literal.f0_9];
              location_data := {| relative_bounding_box := bbox |} |} in
  PyFloat.in_unit (xmin bbox) = true
  /\ PyFloat.in_unit (ymin bbox) = true
  /\ PyFloat.in_unit (width bbox) = true
  /\ PyFloat.in_unit (height bbox) = true
  /\ fst (post_detect_face
            (Fixture.env (inr (Fixture.picture "RGB")) (Fixture.faces [d]))
            (Fixture.upload (Some "image/png")) 0%nat)
     = Some {| status := 200;
               body :=
                 VDict [("ok", VBool true);
                        ("found", VBool true);
                        ("face",
                         VDict [("x", VFloat Literal.f1_05);
                                ("y", VFloat Literal.f0_5);
                                ("w", VFloat Literal.f0_3);
                                ("h", VFloat Literal.f0_5)])] |}
  /\ PyFloat.in_unit Literal.f1_05 = false
  /\ PyFloat.ltb PyFloat.one Literal.f1_05 = true.
Proof. repeat split; vm_compute; reflexivity. Qed.

(** ** Processing failures *)

Section Failures.

Context {W FD : Type}.
Variable env : Env W FD.

(** Past the precondition the answer is never the 400: the handler
    returns a value or raises something that is not the check's
    [HTTPException]. *)
Lemma accepted_never_400 (file : UploadFile) (ct : string) (w : W)
      (response : HttpResponse) :
  content_type file = Some ct ->
  String.prefix "image/" ct = true ->
  fst (post_detect_face env file w) = Some response ->
  status response = 200 \/ status response = 500.
Proof.
  intros Hct Hprefix.
  unfold post_detect_face, detect_face, bind, lift, startswith.
  rewrite Hct, Hprefix; cbn [negb].
  unfold try_except_Exception.
  destruct (detect_face_try env file (request_state w)) as [[e|v] st'].
  - destruct (is_Exception e) eqn:He.
    + cbn. intros H; injection H as <-. left; reflexivity.
    + destruct e as [code detail|msg|msg|cls [|] msg]; try discriminate He.
      cbn. discriminate.
  - cbn [fst respond].
    destruct (json_compliant v); intros H; injection H as <-;
      [ left | right ]; reflexivity.
Qed.

(** C2, as the handler has it: past the precondition, an exception [e]
    deriving from [Exception] that the body of the [try] raises (while
    reading, decoding, converting or detecting) is printed and answered
    with status 200 and [{ok: false, error: str(e)}]; whatever is answered
    has status 200, never 500.  The error string is [str(e)] as it is. *)
Theorem processing_exception_reported (file : UploadFile) (ct : string) (w : W)
        (e : PyExc) (st' : State W FD) :
  content_type file = Some ct ->
  String.prefix "image/" ct = true ->
  detect_face_try env file (request_state w) = (inl e, st') ->
  is_Exception e = true ->
  post_detect_face env file w
  = (Some {| status := 200;
             body := VDict [("ok", VBool false); ("error", VStr (exc_str e))] |},
     {| world := world st';
        calls := calls st' ++ [CallPrint ("Error processing image: " ++ exc_str e)] |})
  /\ (forall response,
         fst (post_detect_face env file w) = Some response -> status response = 200).
Proof.
  intros Hct Hprefix Hraise He. split.
  - unfold post_detect_face, detect_face, bind, lift, startswith.
    rewrite Hct, Hprefix; cbn [negb].
    unfold try_except_Exception. rewrite Hraise, He. reflexivity.
  - assert (Hpost : fst (post_detect_face env file w)
                    = Some {| status := 200;
                              body := VDict [("ok", VBool false);
                                             ("error", VStr (exc_str e))] |}).
    { unfold post_detect_face, detect_face, bind, lift, startswith.
      rewrite Hct, Hprefix; cbn [negb].
      unfold try_except_Exception. rewrite Hraise, He. reflexivity. }
    intros response. rewrite Hpost. intros H; injection H as <-. reflexivity.
Qed.

End Failures.

(** C2 on a concrete request: bytes that PIL cannot identify. *)
Lemma processing_exception_reported_witness :
  fst (post_detect_face
         (Fixture.env
            (inl (LibraryError "UnidentifiedImageError" true
                    "cannot identify image file"))
            (Fixture.faces []))
         (Fixture.upload (Some "image/png")) 0%nat)
  = Some {| status := 200;
            body := VDict [("ok", VBool false);
                           ("error", VStr "cannot identify image file")] |}.
Proof.
  rewrite (proj1 (processing_exception_reported
                    (Fixture.env
                       (inl (LibraryError "UnidentifiedImageError" true
                               "cannot identify image file"))
                       (Fixture.faces []))
                    (Fixture.upload (Some "image/png")) "image/png" 0%nat
                    _ _ eq_refl eq_refl eq_refl eq_refl)).
  reflexivity.
Defined.

(** What does not derive from [Exception] passes through the [except]
    clause: a [CancelledError] raised while reading leaves the handler, and
    no response is made of it. *)
Lemma base_exception_escapes :
  let file := {| content_type := Some "image/png";
                 read := inl (LibraryError "CancelledError" false "") |} in
  post_detect_face
    (Fixture.env (inr (Fixture.picture "RGB")) (Fixture.faces [])) file 0%nat
  = (None, {| world := 0%nat; calls := [CallRead] |}).
Proof. reflexivity. Qed.

(** C2 as stated fails when the exception carries no message: a
    [MemoryError] raised by the allocator has [str(e) = ""], and the
    response is [{ok: false, error: ""}]. *)
Lemma error_string_can_be_empty :
  let env := Fixture.env (inl (LibraryError "MemoryError" true ""))
                         (Fixture.faces []) in
  let file := Fixture.upload (Some "image/png") in
  content_type file = Some "image/png"
  /\ String.prefix "image/" "image/png" = true
  /\ fst (detect_face_try env file (request_state 0%nat))
     = inl (LibraryError "MemoryError" true "")
  /\ fst (post_detect_face env file 0%nat)
     = Some {| status := 200;
               body := VDict [("ok", VBool false); ("error", VStr "")] |}
  /\ ~ reports_nonempty_error (fst (post_detect_face env file 0%nat)).
Proof.
  cbv zeta. repeat split.
  intros [msg [Hne H]]. cbn in H.
  injection H as H. apply Hne. symmetry. exact H.
Qed.

(** ** Decoding does not touch the runtime *)

Section Frames.

Context {W FD : Type}.
Variable env : Env W FD.

(** Lines 32-40 yield a result and a list of calls that depend on the
    upload only; the runtime state is left as it was. *)
Lemma load_rgb_array_frame (file : UploadFile) :
  exists (r : Result ndarray) (cs : list (Call FD)),
    forall st : State W FD,
      load_rgb_array env file st
      = (r, {| world := world st; calls := calls st ++ cs |}).
Proof.
  unfold load_rgb_array, bind, call_pure, lift, ret.
  destruct (read file) as [e|contents];
    [ eexists _, _; intros st; reflexivity | ].
  destruct (Image_open env contents) as [e|image];
    [ eexists _, _; intros st; cbn; rewrite <- !app_assoc; reflexivity | ].
  destruct (negb (String.eqb (mode image) "RGB")).
  - destruct (Image_convert env image "RGB") as [e|image'];
      [ eexists _, _; intros st; cbn; rewrite <- !app_assoc; reflexivity | ].
    destruct (np_array env image') as [e|img_np];
      [ eexists _, _; intros st; cbn; rewrite <- !app_assoc; reflexivity | ].
    destruct (unpack3 (shape img_np)) as [e|[[h wd] c]];
      eexists _, _; intros st; cbn; rewrite <- !app_assoc; reflexivity.
  - destruct (np_array env image) as [e|img_np];
      [ eexists _, _; intros st; cbn; rewrite <- !app_assoc; reflexivity | ].
    destruct (unpack3 (shape img_np)) as [e|[[h wd] c]];
      eexists _, _; intros st; cbn; rewrite <- !app_assoc; reflexivity.
Qed.

End Frames.

(** ** Only the first detection counts *)

Section FirstOnly.

Context {W FD : Type}.
Variable env : Env W FD.

Lemma run_detection_same_first (p1 p2 : FD -> ndarray -> W -> Result Results * W)
      (img_np : ndarray) (st : State W FD) :
  (forall fd a w, same_first (p1 fd a w) (p2 fd a w)) ->
  run_detection (with_process env p1) img_np st
  = run_detection (with_process env p2) img_np st.
Proof.
  intros Hsame.
  unfold run_detection, with_closing, bind, call_world, lift.
  cbn [FaceDetection process close with_process].
  destruct (FaceDetection env 1 (PyFloat.of_ratio 1 2) (world st)) as [[e|fd] w2];
    [ reflexivity | ].
  cbv beta iota; cbn [world calls].
  destruct (Hsame fd img_np w2) as [Hworld (d & rest1 & rest2 & H1 & H2)].
  destruct (p1 fd img_np w2) as [r1 u1], (p2 fd img_np w2) as [r2 u2].
  cbn [fst snd] in Hworld, H1, H2. subst r1 r2 u2.
  rewrite (locate_face_first {| detections := Some (d :: rest1) |} d rest1 eq_refl).
  rewrite (locate_face_first {| detections := Some (d :: rest2) |} d rest2 eq_refl).
  reflexivity.
Qed.

(** C6: two models that, on every picture, return non-empty detection
    lists with the same first element (however the later elements and
    their scores differ) get the same response, and the same calls are
    made. *)
Theorem first_detection_only (p1 p2 : FD -> ndarray -> W -> Result Results * W)
        (file : UploadFile) (w : W) :
  (forall fd a w0, same_first (p1 fd a w0) (p2 fd a w0)) ->
  post_detect_face (with_process env p1) file w
  = post_detect_face (with_process env p2) file w.
Proof.
  intros Hsame.
  unfold post_detect_face, detect_face, bind.
  destruct (lift (startswith (content_type file) "image/") (request_state w))
    as [[e|is_image] st0]; [ reflexivity | ].
  destruct (negb is_image); [ reflexivity | ].
  unfold try_except_Exception, detect_face_try, bind.
  change (load_rgb_array (with_process env p1) file)
    with (load_rgb_array env file).
  change (load_rgb_array (with_process env p2) file)
    with (load_rgb_array env file).
  destruct (load_rgb_array env file st0) as [[e|img_np] st1]; [ reflexivity | ].
  rewrite (run_detection_same_first p1 p2 img_np st1 Hsame).
  reflexivity.
Qed.

End FirstOnly.

(** C6 on a concrete pair of models: the second one reports a further,
    larger and better-scored face after the first. *)
Lemma first_detection_only_witness :
  let first := Fixture.box Literal.f0_2 Literal.f0_3 Literal.f0_1 Literal.f0_2 in
  let other := {| score := [PyFloat.one];
                  location_data :=
                    {| relative_bounding_box :=
                         {| xmin := Literal.f0_25; ymin := Literal.f0_25;
                            width := Literal.f0_5; height := Literal.f0_5 |} |} |} in
  let env := Fixture.env (inr (Fixture.picture "RGB")) (Fixture.faces []) in
  post_detect_face
    (with_process env (fun _ _ n => (Fixture.faces [first], n)))
    (Fixture.upload (Some "image/png")) 0%nat
  = post_detect_face
      (with_process env (fun _ _ n => (Fixture.faces [first; other], n)))
      (Fixture.upload (Some "image/png")) 0%nat.
Proof.
  cbv zeta. apply first_detection_only.
  intros fd a n. split; [ reflexivity | ].
  eexists _, _, _. split; reflexivity.
Defined.

(** ** Determinism *)

Section Determinism.

Context {W FD : Type}.
Variable env : Env W FD.
Hypothesis deterministic : Deterministic env.

Lemma run_detection_deterministic (img_np : ndarray) (st st' : State W FD) :
  fst (run_detection env img_np st) = fst (run_detection env img_np st').
Proof.
  unfold run_detection, with_closing, bind, call_world, lift.
  pose proof (det_new env deterministic 1 (PyFloat.of_ratio 1 2)
                (world st) (world st')) as Hnew.
  destruct (FaceDetection env 1 (PyFloat.of_ratio 1 2) (world st))
    as [[e|fd] u] eqn:E;
    destruct (FaceDetection env 1 (PyFloat.of_ratio 1 2) (world st'))
    as [[e'|fd'] u'] eqn:E';
    cbn [fst] in Hnew; try contradiction.
  - subst e'. reflexivity.
  - cbv beta iota; cbn [world calls].
    pose proof (det_process env deterministic _ _ _ _ _ _ _ _ img_np u u' E E')
      as Hprocess.
    destruct (process env fd img_np u) as [r v],
             (process env fd' img_np u') as [r' v'].
    cbn [fst] in Hprocess. subst r'.
    pose proof (det_close env deterministic _ _ _ _ _ _ _ _ v v' E E') as Hclose.
    destruct r as [e|results]; [ | destruct (locate_face results) ];
      cbv beta iota; cbn [world calls];
      destruct (close env fd v) as [c x], (close env fd' v') as [c' x'];
      cbn [fst] in Hclose; subst c'; destruct c as [e0|[]]; reflexivity.
Qed.

End Determinism.

Section Replay.

Context {W FD : Type}.
Variables env env' : Env W FD.
Hypothesis deterministic : Deterministic env.
Hypothesis replays : Replays env env'.

Lemma load_rgb_array_replays (file : UploadFile) (st st' : State W FD) :
  same_outcome (fst (load_rgb_array env file st))
               (fst (load_rgb_array env' file st')).
Proof.
  unfold load_rgb_array, bind, call_pure, lift, ret.
  destruct (read file) as [e|contents]; [ reflexivity | ].
  pose proof (replay_open env env' replays contents) as Hopen.
  destruct (Image_open env contents) as [e|image],
           (Image_open env' contents) as [e'|image'];
    cbn in Hopen; try contradiction; [ exact Hopen | subst image' ].
  assert (Harray : forall (image0 : Image) (s0 s0' : State W FD),
             same_outcome
               (fst (let (r0, s1) := (np_array env image0, s0) in
                     match r0 with
                     | inl e => (inl e, s1)
                     | inr img_np =>
                         match unpack3 (shape img_np) with
                         | inl e => (inl e, s1)
                         | inr _ => (inr img_np, s1)
                         end
                     end))
               (fst (let (r0, s1) := (np_array env' image0, s0') in
                     match r0 with
                     | inl e => (inl e, s1)
                     | inr img_np =>
                         match unpack3 (shape img_np) with
                         | inl e => (inl e, s1)
                         | inr _ => (inr img_np, s1)
                         end
                     end))).
  { intros image0 s0 s0'.
    pose proof (replay_array env env' replays image0) as Harr.
    destruct (np_array env image0) as [e|img_np],
             (np_array env' image0) as [e'|img_np'];
      cbn in Harr; try contradiction; [ exact Harr | subst img_np' ].
    destruct (unpack3 (shape img_np)); reflexivity. }
  destruct (negb (String.eqb (mode image) "RGB")).
  - pose proof (replay_convert env env' replays image "RGB") as Hconv.
    destruct (Image_convert env image "RGB") as [e|converted],
             (Image_convert env' image "RGB") as [e'|converted'];
      cbn in Hconv; try contradiction; [ exact Hconv | subst converted' ].
    apply Harray.
  - apply Harray.
Qed.

Lemma run_detection_replays (img_np : ndarray) (st : State W FD) :
  run_detection env' img_np st = run_detection env img_np st.
Proof.
  unfold run_detection.
  rewrite (replay_new env env' replays), (replay_process env env' replays),
    (replay_close env env' replays).
  reflexivity.
Qed.

Lemma detect_face_replays (file : UploadFile) (w w' : W) :
  found_and_face (fst (post_detect_face env' file w'))
  = found_and_face (fst (post_detect_face env file w)).
Proof.
  unfold post_detect_face, detect_face, bind.
  unfold lift at 1 2.
  destruct (startswith (content_type file) "image/") as [e|is_image];
    [ reflexivity | ].
  destruct (negb is_image); [ reflexivity | ].
  unfold try_except_Exception, detect_face_try, bind.
  pose proof (load_rgb_array_replays file (request_state w) (request_state w'))
    as Hload.
  destruct (load_rgb_array env file (request_state w)) as [[e|img_np] st1],
           (load_rgb_array env' file (request_state w')) as [[e'|img_np'] st1'];
    cbn in Hload; try contradiction.
  - rewrite <- Hload. destruct (is_Exception e) eqn:He; [ reflexivity | ].
    destruct e as [code detail|msg|msg|cls [|] msg]; try discriminate He.
    destruct e' as [code' detail'|msg'|msg'|cls' [|] msg']; try discriminate Hload.
    reflexivity.
  - subst img_np'. rewrite run_detection_replays.
    pose proof (run_detection_deterministic env deterministic img_np st1' st1)
      as Hrun.
    destruct (run_detection env img_np st1') as [r2 s2],
             (run_detection env img_np st1) as [r1 s1].
    cbn [fst] in Hrun. subst r2.
    destruct r1 as [e|v]; [ destruct (is_Exception e) | ]; reflexivity.
Qed.


End Replay.

Lemma fixture_deterministic (decoded : Result Image) (found : Result Results) :
  Deterministic (Fixture.env decoded found).
Proof.
  constructor; intros; cbn; try reflexivity; exact I.
Qed.

Lemma fixture_replays (decoded decoded' : Result Image) (found : Result Results) :
  same_outcome decoded decoded' ->
  Replays (Fixture.env decoded found) (Fixture.env decoded' found).
Proof.
  intros Hsame. constructor; intros; cbn; try reflexivity; exact Hsame.
Qed.


(** ** The RGB invariant *)

Section Rgb.

Context {W FD : Type}.
Variable env : Env W FD.

(** PIL: [convert(mode)] returns a picture of that mode. *)
Hypothesis convert_mode :
  forall image to_mode image',
    Image_convert env image to_mode = inr image' -> mode image' = to_mode.

(** NumPy: the array of an RGB picture has shape [(height, width, 3)]. *)
Hypothesis rgb_array_shape :
  forall image img_np,
    mode image = "RGB" -> np_array env image = inr img_np -> three_channels img_np.

Lemma load_rgb_array_rgb (file : UploadFile) (st st' : State W FD)
      (r : Result ndarray) :
  load_rgb_array env file st = (r, st') ->
  (forall c, In c (calls st') -> In c (calls st) \/ rgb_call c)
  /\ (forall img_np, r = inr img_np -> three_channels img_np).
Proof.
  unfold load_rgb_array, bind, call_pure, lift, ret.
  destruct (read file) as [e|contents].
  { intros [= <- <-]. split; [ | discriminate ].
    cbn. intros c Hc. apply in_app_or in Hc as [Hc|[<-|[]]]; [ now left | now right ]. }
  destruct (Image_open env contents) as [e|image].
  { intros [= <- <-]. split; [ | discriminate ].
    cbn. intros c Hc.
    repeat (apply in_app_or in Hc as [Hc|[<-|[]]]; [ | now right ]). now left. }
  assert (Hrgb : forall image0 : Image,
             mode image0 = "RGB" ->
             forall s0 : State W FD,
               (forall c, In c (calls s0) -> In c (calls st) \/ rgb_call c) ->
               (let (r0, s1) :=
                  (np_array env image0,
                   {| world := world s0; calls := calls s0 ++ [CallArray image0] |}) in
                match r0 with
                | inl e => (inl e, s1)
                | inr img_np =>
                    match unpack3 (shape img_np) with
                    | inl e => (inl e, s1)
                    | inr _ => (inr img_np, s1)
                    end
                end) = (r, st') ->
               (forall c, In c (calls st') -> In c (calls st) \/ rgb_call c)
               /\ (forall img_np, r = inr img_np -> three_channels img_np)).
  { intros image0 Hmode s0 Hs0.
    destruct (np_array env image0) as [e|img_np] eqn:Harr.
    - intros [= <- <-]. split; [ | discriminate ].
      cbn. intros c Hc. apply in_app_or in Hc as [Hc|[<-|[]]]; [ auto | now right ].
    - destruct (unpack3 (shape img_np)) as [e|t]; intros [= <- <-].
      + split; [ | discriminate ].
        cbn. intros c Hc. apply in_app_or in Hc as [Hc|[<-|[]]]; [ auto | now right ].
      + split.
        * cbn. intros c Hc.
          apply in_app_or in Hc as [Hc|[<-|[]]]; [ auto | now right ].
        * intros a [= <-]. exact (rgb_array_shape image0 img_np Hmode Harr). }
  destruct (String.eqb (mode image) "RGB") eqn:Hmode; cbn [negb].
  - apply String.eqb_eq in Hmode.
    intros H. cbn in H. revert H.
    apply (Hrgb image Hmode
             {| world := world st;
                calls := (calls st ++ [CallRead]) ++ [CallImageOpen contents] |}).
    cbn. intros c Hc.
    repeat (apply in_app_or in Hc as [Hc|[<-|[]]]; [ | now right ]). now left.
  - destruct (Image_convert env image "RGB") as [e|image'] eqn:Hconv.
    { intros [= <- <-]. split; [ | discriminate ].
      cbn. intros c Hc.
      repeat (apply in_app_or in Hc as [Hc|[<-|[]]]; [ | now right ]). now left. }
    intros H. cbn in H. revert H.
    apply (Hrgb image' (convert_mode image "RGB" image' Hconv)
             {| world := world st;
                calls := ((calls st ++ [CallRead]) ++ [CallImageOpen contents])
                           ++ [CallConvert image "RGB"] |}).
    cbn. intros c Hc.
    repeat (apply in_app_or in Hc as [Hc|[<-|[]]]; [ | now right ]). now left.
Qed.

Lemma run_detection_rgb (img_np : ndarray) (st st' : State W FD)
      (r : Result PyVal) :
  three_channels img_np ->
  run_detection env img_np st = (r, st') ->
  forall c, In c (calls st') -> In c (calls st) \/ rgb_call c.
Proof.
  intros Hshape.
  unfold run_detection, with_closing, bind, call_world, lift.
  destruct (FaceDetection env 1 (PyFloat.of_ratio 1 2) (world st)) as [[e|fd] w2].
  { intros [= <- <-]. cbn. intros c Hc.
    apply in_app_or in Hc as [Hc|[<-|[]]]; [ now left | now right ]. }
  cbv beta iota; cbn [world calls].
  assert (Hcalls : forall c,
             In c ((((calls st ++ [CallFaceDetection 1 (PyFloat.of_ratio 1 2)])
                       ++ [CallProcess fd img_np]) ++ [CallClose fd])) ->
             In c (calls st) \/ rgb_call c).
  { intros c Hc.
    repeat (apply in_app_or in Hc as [Hc|[<-|[]]]; [ | right; cbn; auto ]).
    now left. }
  destruct (process env fd img_np w2) as [[e|results] w3];
    [ | destruct (locate_face results) ];
    cbv beta iota; cbn [world calls];
    destruct (close env fd w3) as [[e'|[]] w4];
    intros [= <- <-]; exact Hcalls.
Qed.


End Rgb.

(** The stand-in honours both contracts. *)
Lemma fixture_contracts (decoded : Result Image) (found : Result Results) :
  (forall image to_mode image',
      Image_convert (Fixture.env decoded found) image to_mode = inr image' ->
      mode image' = to_mode)
  /\ (forall image img_np,
         mode image = "RGB" ->
         np_array (Fixture.env decoded found) image = inr img_np ->
         three_channels img_np).
Proof.
  split.
  - intros image to_mode image' [= <-]. reflexivity.
  - intros image img_np Hmode [= <-].
    unfold Fixture.array_of. destruct (size image) as [wd h].
    rewrite Hmode. cbn. eexists _, _. reflexivity.
Qed.


(** * Further properties of the handler *)

Local Open Scope list_scope.

(** ** The order of the external calls *)

Lemma unpack3_shape (t : list Z) (a b c : Z) :
  unpack3 t = inr (a, b, c) -> t = [a; b; c].
Proof.
  destruct t as [|x [|y [|z [|u t]]]]; cbn; try discriminate.
  intros [= <- <- <-]. reflexivity.
Qed.

Lemma ok_value_not_error (v : PyVal) (msg : string) :
  ok_value v -> v <> error_value msg.
Proof.
  intros [->|[bbox ->]]; discriminate.
Qed.

Section Trace.

Context {W FD : Type}.
Variable env : Env W FD.

(** Lines 32-40 only make decode calls, leave the runtime alone, and
    return an array only when its shape has three entries. *)
Lemma load_rgb_array_trace (file : UploadFile) (st st' : State W FD)
      (r : Result ndarray) :
  load_rgb_array env file st = (r, st') ->
  world st' = world st
  /\ (exists cs : list (Call FD),
         calls st' = calls st ++ cs /\ Forall decode_call cs)
  /\ (forall img_np, r = inr img_np -> exists h w c, shape img_np = [h; w; c]).
Proof.
  unfold load_rgb_array, bind, call_pure, lift, ret.
  destruct (read file) as [e|contents].
  { intros [= <- <-]. repeat split; [ | discriminate ].
    exists [CallRead]. split; [ reflexivity | repeat constructor ]. }
  destruct (Image_open env contents) as [e|image].
  { intros [= <- <-]. repeat split; [ | discriminate ].
    exists [CallRead; CallImageOpen contents]. cbn.
    rewrite <- !app_assoc. split; [ reflexivity | repeat constructor ]. }
  destruct (String.eqb (mode image) "RGB") eqn:Hmode; cbn [negb].
  - destruct (np_array env image) as [e|img_np].
    { intros [= <- <-]. repeat split; [ | discriminate ].
      exists [CallRead; CallImageOpen contents; CallArray image]. cbn.
      rewrite <- !app_assoc. split; [ reflexivity | repeat constructor ]. }
    cbn. destruct (unpack3 (shape img_np)) as [e|[[h wd] c]] eqn:Hshape;
      intros [= <- <-]; repeat split; try discriminate.
    + exists [CallRead; CallImageOpen contents; CallArray image].
      rewrite <- !app_assoc. split; [ reflexivity | repeat constructor ].
    + exists [CallRead; CallImageOpen contents; CallArray image].
      rewrite <- !app_assoc. split; [ reflexivity | repeat constructor ].
    + intros a [= <-]. exists h, wd, c. apply unpack3_shape, Hshape.
  - assert (Hneq : mode image <> "RGB")
      by (intros H; apply String.eqb_eq in H; congruence).
    destruct (Image_convert env image "RGB") as [e|image'].
    { intros [= <- <-]. repeat split; [ | discriminate ].
      exists [CallRead; CallImageOpen contents; CallConvert image "RGB"]. cbn.
      rewrite <- !app_assoc.
      split; [ reflexivity | repeat constructor; assumption ]. }
    destruct (np_array env image') as [e|img_np].
    { intros [= <- <-]. repeat split; [ | discriminate ].
      exists [CallRead; CallImageOpen contents; CallConvert image "RGB";
              CallArray image']. cbn.
      rewrite <- !app_assoc.
      split; [ reflexivity | repeat constructor; assumption ]. }
    cbn. destruct (unpack3 (shape img_np)) as [e|[[h wd] c]] eqn:Hshape;
      intros [= <- <-]; repeat split; try discriminate.
    + exists [CallRead; CallImageOpen contents; CallConvert image "RGB";
              CallArray image'].
      rewrite <- !app_assoc.
      split; [ reflexivity | repeat constructor; assumption ].
    + exists [CallRead; CallImageOpen contents; CallConvert image "RGB";
              CallArray image'].
      rewrite <- !app_assoc.
      split; [ reflexivity | repeat constructor; assumption ].
    + intros a [= <-]. exists h, wd, c. apply unpack3_shape, Hshape.
Qed.

(** Lines 43-73 either stop at a construction that raises, or construct,
    process and close, in this order and on the same instance; a value is
    returned only in the second case, and it is one of the two success
    values. *)
Lemma run_detection_trace (img_np : ndarray) (st st' : State W FD)
      (r : Result PyVal) :
  run_detection env img_np st = (r, st') ->
  ((exists e, r = inl e)
   /\ calls st' = calls st ++ [CallFaceDetection 1 (PyFloat.of_ratio 1 2)])
  \/ ((forall v, r = inr v -> ok_value v)
      /\ exists fd,
          calls st' = calls st ++ [CallFaceDetection 1 (PyFloat.of_ratio 1 2);
                                   CallProcess fd img_np; CallClose fd]).
Proof.
  unfold run_detection, with_closing, bind, call_world, lift.
  destruct (FaceDetection env 1 (PyFloat.of_ratio 1 2) (world st)) as [[e|fd] w2].
  { intros [= <- <-]. left. split; [ eexists; reflexivity | reflexivity ]. }
  cbv beta iota; cbn [world calls].
  destruct (process env fd img_np w2) as [[e|results] w3].
  - cbv beta iota; cbn [world calls].
    destruct (close env fd w3) as [[e'|[]] w4]; intros [= <- <-]; right;
      (split; [ intros v; discriminate
              | exists fd; cbn; rewrite <- !app_assoc; reflexivity ]).
  - destruct (locate_face results) as [e|v] eqn:Hv;
      cbv beta iota; cbn [world calls];
      destruct (close env fd w3) as [[e'|[]] w4]; intros [= <- <-]; right;
      (split; [ | exists fd; cbn; rewrite <- !app_assoc; reflexivity ]);
      try (intros v0; discriminate).
    intros v0 [= <-]. unfold locate_face in Hv.
    destruct (detections results) as [[|d rest]|]; cbn in Hv;
      injection Hv as <-; [ left | right; eexists | left ]; reflexivity.
Qed.

(** The body of the [try]: decode calls, then the calls of the [with]
    block; the runtime state changes only if the model was constructed. *)
Lemma detect_face_try_trace (file : UploadFile) (w : W) (r : Result PyVal)
      (st' : State W FD) :
  detect_face_try env file (request_state w) = (r, st') ->
  exists cs rs : list (Call FD),
    calls st' = cs ++ rs
    /\ Forall decode_call cs
    /\ runtime_phase rs
    /\ (rs = [] -> world st' = w)
    /\ (forall v, r = inr v -> ok_value v).
Proof.
  unfold detect_face_try, bind.
  destruct (load_rgb_array env file (request_state w)) as [[e|img_np] st1] eqn:Hload;
    destruct (load_rgb_array_trace file _ _ _ Hload)
      as (Hworld & (cs & Hcalls & Hcs) & Hshape).
  - intros [= <- <-]. exists cs, []. rewrite app_nil_r.
    split; [ exact Hcalls | ]. split; [ exact Hcs | ].
    split; [ left; reflexivity | ].
    split; [ intros _; exact Hworld | intros v; discriminate ].
  - intros Hrun. destruct (Hshape img_np eq_refl) as (h & wd & c & Himg).
    destruct (run_detection_trace img_np st1 st' r Hrun)
      as [[[e ->] Hrs]|[Hv [fd Hrs]]].
    + exists cs, [CallFaceDetection 1 (PyFloat.of_ratio 1 2)].
      split; [ rewrite Hrs, Hcalls; reflexivity | ]. split; [ exact Hcs | ].
      split; [ right; left; reflexivity | ].
      split; [ discriminate | intros v; discriminate ].
    + exists cs, [CallFaceDetection 1 (PyFloat.of_ratio 1 2);
                  CallProcess fd img_np; CallClose fd].
      split; [ rewrite Hrs, Hcalls; reflexivity | ]. split; [ exact Hcs | ].
      split; [ right; right; exists fd, img_np, h, wd, c;
               split; [ assumption | reflexivity ] | ].
      split; [ discriminate | exact Hv ].
Qed.

(** The whole request: decode calls, the calls of the [with] block, and
    one [print] exactly when the answer is the error value, whose message
    the printed line carries. *)
Lemma request_trace (file : UploadFile) (w : W) :
  exists cs rs ps : list (Call FD),
    calls (snd (post_detect_face env file w)) = cs ++ rs ++ ps
    /\ Forall decode_call cs
    /\ runtime_phase rs
    /\ (rs = [] -> world (snd (post_detect_face env file w)) = w)
    /\ ((ps = []
         /\ forall msg,
             fst (post_detect_face env file w)
             <> Some {| status := 200; body := error_value msg |})
        \/ exists msg,
            ps = [CallPrint ("Error processing image: " ++ msg)%string]
            /\ fst (post_detect_face env file w)
               = Some {| status := 200; body := error_value msg |}).
Proof.
  unfold post_detect_face, detect_face, bind, lift.
  destruct (startswith (content_type file) "image/") as [e|is_image] eqn:Hstart.
  { exists [], [], []. cbn.
    split; [ reflexivity | ]. split; [ constructor | ].
    split; [ left; reflexivity | ]. split; [ reflexivity | ].
    left. split; [ reflexivity | ].
    destruct (content_type file); cbn in Hstart; [ discriminate | ].
    injection Hstart as <-. discriminate. }
  cbv beta iota.
  destruct (negb is_image).
  { exists [], [], []. cbn.
    split; [ reflexivity | ]. split; [ constructor | ].
    split; [ left; reflexivity | ]. split; [ reflexivity | ].
    left. split; [ reflexivity | discriminate ]. }
  unfold try_except_Exception.
  destruct (detect_face_try env file (request_state w)) as [[e|v] st'] eqn:Htry;
    destruct (detect_face_try_trace file w _ _ Htry)
      as (cs & rs & Hcalls & Hcs & Hrs & Hworld & Hv).
  - destruct (is_Exception e) eqn:He.
    + exists cs, rs, [CallPrint ("Error processing image: " ++ exc_str e)%string].
      cbn. split; [ rewrite Hcalls, <- app_assoc; reflexivity | ].
      split; [ exact Hcs | ]. split; [ exact Hrs | ]. split; [ exact Hworld | ].
      right. exists (exc_str e). split; reflexivity.
    + exists cs, rs, []. cbn. rewrite app_nil_r.
      split; [ exact Hcalls | ].
      split; [ exact Hcs | ]. split; [ exact Hrs | ]. split; [ exact Hworld | ].
      left. split; [ reflexivity | ].
      destruct e as [code detail|msg|msg|cls [|] msg]; try discriminate He.
      discriminate.
  - exists cs, rs, []. cbn. rewrite app_nil_r.
    split; [ exact Hcalls | ].
    split; [ exact Hcs | ]. split; [ exact Hrs | ]. split; [ exact Hworld | ].
    left. split; [ reflexivity | ].
    intros msg H. destruct (json_compliant v); [ | discriminate H ].
    injection H as H. exact (ok_value_not_error v msg (Hv v eq_refl) H).
Qed.

End Trace.

Lemma decode_call_not_runtime {FD} (cs : list (Call FD)) (c : Call FD) :
  Forall decode_call cs -> In c cs ->
  match c with
  | CallFaceDetection _ _ | CallProcess _ _ | CallClose _ | CallPrint _ => False
  | _ => decode_call c
  end.
Proof.
  intros Hcs Hc. rewrite Forall_forall in Hcs. specialize (Hcs c Hc).
  destruct c; cbn in Hcs |- *; assumption.
Qed.

Lemma decode_calls_no_construction {FD} (cs : list (Call FD)) :
  Forall decode_call cs -> filter is_construction cs = [].
Proof.
  induction 1 as [|c cs Hc _ IH]; [ reflexivity | ].
  cbn. destruct c; cbn in Hc |- *; try contradiction; exact IH.
Qed.

Section Calls.

Context {W FD : Type}.
Variable env : Env W FD.

(** X1: whenever the handler runs the model on an instance, the next call
    closes that same instance, whether [process] returned or raised and
    whatever the response is. *)
Theorem detection_instance_released (file : UploadFile) (w : W)
        (fd : FD) (img_np : ndarray) :
  In (CallProcess fd img_np) (calls (snd (post_detect_face env file w))) ->
  exists before after,
    calls (snd (post_detect_face env file w))
    = before ++ CallProcess fd img_np :: CallClose fd :: after.
Proof.
  destruct (request_trace env file w) as (cs & rs & ps & -> & Hcs & Hrs & _ & Hps).
  intros Hin. apply in_app_or in Hin as [Hin|Hin].
  { destruct (decode_call_not_runtime cs _ Hcs Hin). }
  apply in_app_or in Hin as [Hin|Hin].
  - destruct Hrs as [->|[->|(fd0 & a0 & h & wd & c & _ & ->)]].
    + destruct Hin.
    + destruct Hin as [Hin|[]]; discriminate Hin.
    + destruct Hin as [Hin|[Hin|[Hin|[]]]]; try discriminate Hin.
      injection Hin as -> ->.
      exists (cs ++ [CallFaceDetection 1 (PyFloat.of_ratio 1 2)]), ps.
      rewrite <- !app_assoc. reflexivity.
  - destruct Hps as [[-> _]|(msg & -> & _)].
    + destruct Hin.
    + destruct Hin as [Hin|[]]; discriminate Hin.
Qed.

(** X2: a request constructs at most one [FaceDetection] instance, and
    only with [model_selection=1] and [min_detection_confidence=0.5]. *)
Theorem one_model_with_fixed_parameters (file : UploadFile) (w : W) :
  (List.length (filter is_construction (calls (snd (post_detect_face env file w))))
   <= 1)%nat
  /\ forall ms mc,
      In (CallFaceDetection ms mc) (calls (snd (post_detect_face env file w))) ->
      ms = 1 /\ mc = Literal.f0_5.
Proof.
  destruct (request_trace env file w) as (cs & rs & ps & -> & Hcs & Hrs & _ & Hps).
  assert (Hps' : ps = [] \/ exists line, ps = [CallPrint line]).
  { destruct Hps as [[-> _]|(msg & -> & _)]; [ left | right; eexists ]; reflexivity. }
  split.
  - rewrite !filter_app, (decode_calls_no_construction cs Hcs).
    destruct Hrs as [->|[->|(fd0 & a0 & h & wd & c & _ & ->)]];
      destruct Hps' as [->|[line ->]]; cbn; auto.
  - intros ms mc Hin. apply in_app_or in Hin as [Hin|Hin].
    { destruct (decode_call_not_runtime cs _ Hcs Hin). }
    apply in_app_or in Hin as [Hin|Hin].
    + destruct Hrs as [->|[->|(fd0 & a0 & h & wd & c & _ & ->)]].
      * destruct Hin.
      * destruct Hin as [Hin|[]]. injection Hin as <- <-.
        split; [ reflexivity | vm_compute; reflexivity ].
      * destruct Hin as [Hin|[Hin|[Hin|[]]]]; try discriminate Hin.
        injection Hin as <- <-.
        split; [ reflexivity | vm_compute; reflexivity ].
    + destruct Hps' as [->|[line ->]].
      * destruct Hin.
      * destruct Hin as [Hin|[]]; discriminate Hin.
Qed.

(** X3: whatever PIL and NumPy return, the array given to the model has a
    shape of exactly three entries: line 40 unpacks the shape before the
    model is constructed, so a two-dimensional (grayscale) or
    four-dimensional array never reaches [process]. *)
Theorem process_array_three_dimensional (file : UploadFile) (w : W)
        (fd : FD) (img_np : ndarray) :
  In (CallProcess fd img_np) (calls (snd (post_detect_face env file w))) ->
  exists h wd c, shape img_np = [h; wd; c].
Proof.
  destruct (request_trace env file w) as (cs & rs & ps & -> & Hcs & Hrs & _ & Hps).
  intros Hin. apply in_app_or in Hin as [Hin|Hin].
  { destruct (decode_call_not_runtime cs _ Hcs Hin). }
  apply in_app_or in Hin as [Hin|Hin].
  - destruct Hrs as [->|[->|(fd0 & a0 & h & wd & c & Hshape & ->)]].
    + destruct Hin.
    + destruct Hin as [Hin|[]]; discriminate Hin.
    + destruct Hin as [Hin|[Hin|[Hin|[]]]]; try discriminate Hin.
      injection Hin as -> ->. exists h, wd, c. exact Hshape.
  - destruct Hps as [[-> _]|(msg & -> & _)].
    + destruct Hin.
    + destruct Hin as [Hin|[]]; discriminate Hin.
Qed.

(** X4: a request that does not get as far as constructing the model
    (rejected content type, failed read, decode, conversion or shape
    unpacking) leaves the detection runtime exactly as it found it. *)
Theorem runtime_untouched_without_model (file : UploadFile) (w : W) :
  (forall ms mc,
      ~ In (CallFaceDetection ms mc) (calls (snd (post_detect_face env file w)))) ->
  world (snd (post_detect_face env file w)) = w.
Proof.
  destruct (request_trace env file w)
    as (cs & rs & ps & Hcalls & Hcs & Hrs & Hworld & Hps).
  rewrite Hcalls. intros Hnone. apply Hworld.
  destruct Hrs as [->|[->|(fd0 & a0 & h & wd & c & _ & ->)]]; [ reflexivity | | ];
    exfalso; apply (Hnone 1 (PyFloat.of_ratio 1 2));
    apply in_or_app; right; apply in_or_app; left; left; reflexivity.
Qed.


(** X6: the handler prints a line exactly when it answers
    [{ok: false, error: msg}], and the line is
    ["Error processing image: " + msg]; the 400 answer and the two success
    answers print nothing. *)
Theorem print_iff_error (file : UploadFile) (w : W) (line : string) :
  In (CallPrint line) (calls (snd (post_detect_face env file w)))
  <-> exists msg,
      line = ("Error processing image: " ++ msg)%string
      /\ fst (post_detect_face env file w)
         = Some {| status := 200; body := error_value msg |}.
Proof.
  destruct (request_trace env file w)
    as (cs & rs & ps & Hcalls & Hcs & Hrs & _ & Hps).
  rewrite Hcalls. split.
  - intros Hin. apply in_app_or in Hin as [Hin|Hin].
    { destruct (decode_call_not_runtime cs _ Hcs Hin). }
    apply in_app_or in Hin as [Hin|Hin].
    + destruct Hrs as [->|[->|(fd0 & a0 & h & wd & c & _ & ->)]].
      * destruct Hin.
      * destruct Hin as [Hin|[]]; discriminate Hin.
      * destruct Hin as [Hin|[Hin|[Hin|[]]]]; discriminate Hin.
    + destruct Hps as [[-> _]|(msg & -> & Hresp)].
      * destruct Hin.
      * destruct Hin as [Hin|[]]. injection Hin as <-.
        exists msg. split; [ reflexivity | exact Hresp ].
  - intros (msg & -> & Hresp).
    destruct Hps as [[_ Hnot]|(msg' & -> & Hresp')].
    + destruct (Hnot msg Hresp).
    + rewrite Hresp in Hresp'. injection Hresp' as ->.
      apply in_or_app; right; apply in_or_app; right; left; reflexivity.
Qed.

End Calls.

(** X1 on a concrete request. *)
Lemma detection_instance_released_witness :
  let env := Fixture.env (inr (Fixture.picture "RGB"))
               (inl (LibraryError "RuntimeError" true "graph failed")) in
  let file := Fixture.upload (Some "image/png") in
  exists before after,
    calls (snd (post_detect_face env file 0%nat))
    = before
        ++ CallProcess 0%nat {| shape := [2; 4; 3]; data := [] |}
        :: CallClose 0%nat :: after.
Proof.
  cbv zeta.
  apply (detection_instance_released
           (Fixture.env (inr (Fixture.picture "RGB"))
              (inl (LibraryError "RuntimeError" true "graph failed")))
           (Fixture.upload (Some "image/png")) 0%nat).
  cbn. do 4 right. left. reflexivity.
Defined.

(** X3 on a concrete request: an RGBA upload. *)
Lemma process_array_three_dimensional_witness :
  exists h wd c, shape {| shape := [2; 4; 3]; data := [] |} = [h; wd; c].
Proof.
  apply (process_array_three_dimensional
           (Fixture.env (inr (Fixture.picture "RGBA")) (Fixture.faces []))
           (Fixture.upload (Some "image/png")) 0%nat 0%nat).
  cbn. do 5 right. left. reflexivity.
Defined.

(** X4 on a concrete request: bytes that do not decode. *)
Lemma runtime_untouched_without_model_witness :
  world (snd (post_detect_face
                (Fixture.env
                   (inl (LibraryError "UnidentifiedImageError" true
                           "cannot identify image file"))
                   (Fixture.faces []))
                (Fixture.upload (Some "image/png")) 7%nat))
  = 7%nat.
Proof.
  apply (runtime_untouched_without_model
           (Fixture.env
              (inl (LibraryError "UnidentifiedImageError" true
                      "cannot identify image file"))
              (Fixture.faces []))
           (Fixture.upload (Some "image/png")) 7%nat).
  intros ms mc. cbn. intros [H|[H|[H|[]]]]; discriminate H.
Defined.


(** ** The shapes of the answer *)

Lemma prefix_app (p s : string) :
  String.prefix p s = true <-> exists rest, s = (p ++ rest)%string.
Proof.
  revert s. induction p as [|a p IH]; intros s.
  - split; [ intros _; exists s; reflexivity | intros _; destruct s; reflexivity ].
  - destruct s as [|b s]; cbn.
    + split; [ discriminate | intros [rest H]; discriminate H ].
    + destruct (ascii_dec a b) as [->|Hab].
      * rewrite IH. split; intros [rest H]; exists rest; congruence.
      * split; [ discriminate | intros [rest H]; injection H as H _; congruence ].
Qed.

Section Answers.

Context {W FD : Type}.
Variable env : Env W FD.


(** X8: the precondition accepts exactly the content types that are
    [image/] followed by anything (the comparison is case-sensitive and
    parameters after the subtype are allowed): with a declared content type
    [ct], the answer is the 400 if and only if [ct] is not of that form. *)
Theorem rejected_iff_not_image_prefix (file : UploadFile) (ct : string) (w : W) :
  content_type file = Some ct ->
  fst (post_detect_face env file w)
  = Some {| status := 400;
            body := VDict [("detail", VStr "File must be an image")] |}
  <-> forall rest, ct <> ("image/" ++ rest)%string.
Proof.
  intros Hct.
  destruct (String.prefix "image/" ct) eqn:Hprefix.
  - split.
    + intros H400.
      destruct (accepted_never_400 env file ct w _ Hct Hprefix H400) as [H|H];
        discriminate H.
    + intros Hnot. apply prefix_app in Hprefix as [rest ->].
      destruct (Hnot rest eq_refl).
  - split.
    + intros _ rest ->.
      assert (H : String.prefix "image/" ("image/" ++ rest) = true)
        by (apply prefix_app; exists rest; reflexivity).
      congruence.
    + intros _.
      unfold post_detect_face, detect_face, bind, lift, startswith.
      rewrite Hct, Hprefix. reflexivity.
Qed.

(** X9: when [close] raises an exception [e] deriving from [Exception],
    the answer is [{ok: false, error: str(e)}] whatever [process] did
    before: a face that was found is not reported, and an exception of
    [process] is replaced by the one of [close]. *)
Theorem close_failure_reported (file : UploadFile) (ct : string) (w : W)
        (img_np : ndarray) (st1 : State W FD) (fd : FD) (w2 w3 w4 : W)
        (r : Result Results) (e : PyExc) :
  content_type file = Some ct ->
  String.prefix "image/" ct = true ->
  load_rgb_array env file (request_state w) = (inr img_np, st1) ->
  FaceDetection env 1 (PyFloat.of_ratio 1 2) (world st1) = (inr fd, w2) ->
  process env fd img_np w2 = (r, w3) ->
  close env fd w3 = (inl e, w4) ->
  is_Exception e = true ->
  fst (post_detect_face env file w)
  = Some {| status := 200; body := error_value (exc_str e) |}.
Proof.
  intros Hct Hprefix Hload Hnew Hprocess Hclose He.
  unfold post_detect_face, detect_face, bind, lift, startswith.
  rewrite Hct, Hprefix; cbn [negb].
  unfold try_except_Exception, detect_face_try, bind.
  rewrite Hload.
  unfold run_detection, with_closing, bind, call_world, lift.
  rewrite Hnew; cbv beta iota; cbn [world calls].
  rewrite Hprocess; cbv beta iota; cbn [world calls].
  destruct r as [e0|results]; [ | destruct (locate_face results) ];
    cbv beta iota; cbn [world calls]; rewrite Hclose, He; reflexivity.
Qed.

End Answers.

(** X8 on concrete content types: upper case is rejected. *)
Lemma rejected_iff_not_image_prefix_witness :
  fst (post_detect_face
         (Fixture.env (inr (Fixture.picture "RGB")) (Fixture.faces []))
         (Fixture.upload (Some "IMAGE/PNG")) 0%nat)
  = Some {| status := 400;
            body := VDict [("detail", VStr "File must be an image")] |}
  <-> forall rest, "IMAGE/PNG" <> ("image/" ++ rest)%string.
Proof.
  exact (rejected_iff_not_image_prefix
           (Fixture.env (inr (Fixture.picture "RGB")) (Fixture.faces []))
           (Fixture.upload (Some "IMAGE/PNG")) "IMAGE/PNG" 0%nat eq_refl).
Defined.

(** X9 on a concrete request: a face is found, then [close] fails. *)
Lemma close_failure_reported_witness :
  let env :=
    {| Image_open := fun _ => inr (Fixture.picture "RGB");
       Image_convert := fun image to_mode => inr (Fixture.converted image to_mode);
       np_array := fun image => inr (Fixture.array_of image);
       FaceDetection := fun _ _ n => (inr n, S n);
       process := fun _ _ n =>
         (Fixture.faces
            [Fixture.box Literal.f0_2 Literal.f0_3 Literal.f0_1 Literal.f0_2], n);
       close := fun _ n =>
         (inl (LibraryError "RuntimeError" true "graph close failed"), n) |} in
  fst (post_detect_face env (Fixture.upload (Some "image/png")) 0%nat)
  = Some {| status := 200; body := error_value "graph close failed" |}.
Proof.
  cbv zeta.
  eapply (close_failure_reported _ (Fixture.upload (Some "image/png"))
            "image/png" 0%nat _ _ _ _ _ _ _
            (LibraryError "RuntimeError" true "graph close failed"));
    reflexivity.
Defined.

(** ** Degenerate boxes *)

(** X10: for a box of zero width and zero height (of either sign) whose
    corner coordinates are not zeros themselves, the reported centre is
    the corner, bit for bit: nothing is lost in [xmin + width / 2]. *)
Theorem degenerate_box_center (bbox : RelativeBoundingBox) (sw sh : bool) :
  width bbox = S754_zero sw ->
  height bbox = S754_zero sh ->
  (forall s, xmin bbox <> S754_zero s) ->
  (forall s, ymin bbox <> S754_zero s) ->
  face_payload bbox
  = VDict [("ok", VBool true);
           ("found", VBool true);
           ("face", VDict [("x", VFloat (xmin bbox));
                           ("y", VFloat (ymin bbox));
                           ("w", VFloat (S754_zero sw));
                           ("h", VFloat (S754_zero sh))])].
Proof.
  intros Hw Hh Hx Hy. unfold face_payload. rewrite Hw, Hh.
  assert (Hhalf : forall s, PyFloat.div (S754_zero s) (PyFloat.of_Z 2) = S754_zero s)
    by (intros []; reflexivity).
  rewrite !Hhalf.
  assert (Hadd : forall x s, (forall s', x <> S754_zero s') ->
                             PyFloat.add x (S754_zero s) = x).
  { intros x s Hnz. destruct x as [s'| | |s' m e]; try reflexivity.
    destruct (Hnz s' eq_refl). }
  rewrite (Hadd _ sw Hx), (Hadd _ sh Hy). reflexivity.
Qed.

(** X10 on a concrete box. *)
Lemma degenerate_box_center_witness :
  face_payload {| xmin := Literal.f0_2; ymin := Literal.f0_3;
                  width := S754_zero false; height := S754_zero true |}
  = VDict [("ok", VBool true);
           ("found", VBool true);
           ("face", VDict [("x", VFloat Literal.f0_2);
                           ("y", VFloat Literal.f0_3);
                           ("w", VFloat (S754_zero false));
                           ("h", VFloat (S754_zero true))])].
Proof.
  apply (degenerate_box_center
           {| xmin := Literal.f0_2; ymin := Literal.f0_3;
              width := S754_zero false; height := S754_zero true |}
           false true eq_refl eq_refl);
    intros s; vm_compute; discriminate.
Defined.
